(** * useResponsive: the responsive breakpoint hook

    A shallow embedding of [src/hooks/useResponsive.ts].

    The hook keeps one state cell, [dimensions], and derives from its width
    four flags, a named breakpoint and three threshold queries.  The first
    half of this file embeds those derivations as functions of the state
    cell.  The second half embeds the hook's life inside React and the
    window: renders, the mount effect, resize events and unmount, as a
    transition function over an explicit world.

    Numbers.  [window.innerWidth] and [window.innerHeight] are integers, and
    the numeric breakpoint arguments considered here are integers; both are
    modelled as [Z], compared with [<] and [>=] as the source does.

    Two users of the same code base follow: the settings page, which reads
    [isMobile] from the hook and keeps the backend and save-button cells,
    and the StatsD metrics middleware with the fallback handlers of the
    Express server. *)

From Stdlib Require Import String Ascii DecimalString.
From Stdlib Require Import ZArith List Bool Lia PeanoNat.
Import ListNotations.
Local Open Scope Z_scope.

(** ** Breakpoint table *)

(** [BreakpointName = keyof typeof BREAKPOINTS]. *)
Inductive BreakpointName : Type :=
| mobile
| tablet
| desktop
| wide.

(** [BREAKPOINTS], the constant table of thresholds. *)
Definition BREAKPOINTS (name : BreakpointName) : Z :=
  match name with
  | mobile => 768
  | tablet => 1024
  | desktop => 1280
  | wide => 1536
  end.

(** The argument type [BreakpointName | number] of the query functions. *)
Inductive BreakpointArg : Type :=
| ByName (name : BreakpointName)
| ByNumber (n : Z).

(** The object held by [useState({ width: 0, height: 0 })]. *)
Record Dimensions : Type := mkDimensions {
  width : Z;
  height : Z
}.

(** [getBreakpointValue]: a number passes through, a name is looked up. *)
Definition getBreakpointValue (breakpoint : BreakpointArg) : Z :=
  match breakpoint with
  | ByNumber n => n
  | ByName name => BREAKPOINTS name
  end.

(** ** Derived facts

    Each definition below is the body of the corresponding [useCallback] or
    [useMemo] of the hook, closed over the current [dimensions]. *)

Section Derived.

Variable dimensions : Dimensions.

Definition isBelow (breakpoint : BreakpointArg) : bool :=
  width dimensions <? getBreakpointValue breakpoint.

Definition isAbove (breakpoint : BreakpointArg) : bool :=
  width dimensions >=? getBreakpointValue breakpoint.

Definition isBetween (min max : BreakpointArg) : bool :=
  let minValue := getBreakpointValue min in
  let maxValue := getBreakpointValue max in
  (width dimensions >=? minValue) && (width dimensions <? maxValue).

Definition breakpoint : BreakpointName :=
  if width dimensions <? BREAKPOINTS mobile then mobile
  else if width dimensions <? BREAKPOINTS tablet then tablet
  else if width dimensions <? BREAKPOINTS desktop then desktop
  else wide.

Definition isMobile : bool :=
  width dimensions <? BREAKPOINTS mobile.

Definition isTablet : bool :=
  (width dimensions >=? BREAKPOINTS mobile)
  && (width dimensions <? BREAKPOINTS tablet).

Definition isDesktop : bool :=
  (width dimensions >=? BREAKPOINTS tablet)
  && (width dimensions <? BREAKPOINTS desktop).

Definition isWide : bool :=
  width dimensions >=? BREAKPOINTS desktop.

End Derived.

(** The object returned by the hook ([UseResponsiveReturn]).  Its fields
    carry the source's names inside their own name space, so that
    [UseResponsiveReturn.isMobile r] reads a field of a returned object while
    [isMobile d] is the computation above. *)
Module UseResponsiveReturn.

Record t : Type := make {
  width : Z;
  height : Z;
  isMobile : bool;
  isTablet : bool;
  isDesktop : bool;
  isWide : bool;
  isBelow : BreakpointArg -> bool;
  isAbove : BreakpointArg -> bool;
  isBetween : BreakpointArg -> BreakpointArg -> bool;
  breakpoint : BreakpointName
}.

End UseResponsiveReturn.

(** The [return { ... }] statement of the hook, for a given state cell. *)
Definition useResponsiveReturn (dimensions : Dimensions)
  : UseResponsiveReturn.t :=
  {| UseResponsiveReturn.width := width dimensions;
     UseResponsiveReturn.height := height dimensions;
     UseResponsiveReturn.isMobile := isMobile dimensions;
     UseResponsiveReturn.isTablet := isTablet dimensions;
     UseResponsiveReturn.isDesktop := isDesktop dimensions;
     UseResponsiveReturn.isWide := isWide dimensions;
     UseResponsiveReturn.isBelow := isBelow dimensions;
     UseResponsiveReturn.isAbove := isAbove dimensions;
     UseResponsiveReturn.isBetween := isBetween dimensions;
     UseResponsiveReturn.breakpoint := breakpoint dimensions |}.

(** ** Vocabulary of the properties *)

(** Position of a tier in the order mobile < tablet < desktop < wide. *)
Definition tierRank (name : BreakpointName) : nat :=
  match name with
  | mobile => 0
  | tablet => 1
  | desktop => 2
  | wide => 3
  end.

(** The tier above a threshold: the tier that starts where [name] ends.
    [wide] is the top tier. *)
Definition tierAbove (name : BreakpointName) : BreakpointName :=
  match name with
  | mobile => tablet
  | tablet => desktop
  | desktop => wide
  | wide => wide
  end.

(** The flag of a returned object that carries the name of a tier. *)
Definition flagNamed (r : UseResponsiveReturn.t) (name : BreakpointName)
  : bool :=
  match name with
  | mobile => UseResponsiveReturn.isMobile r
  | tablet => UseResponsiveReturn.isTablet r
  | desktop => UseResponsiveReturn.isDesktop r
  | wide => UseResponsiveReturn.isWide r
  end.

(** The four flags of a returned object, in declaration order. *)
Definition flags (r : UseResponsiveReturn.t) : list bool :=
  [ UseResponsiveReturn.isMobile r;
    UseResponsiveReturn.isTablet r;
    UseResponsiveReturn.isDesktop r;
    UseResponsiveReturn.isWide r ].


(** ** The hook inside React and the window

    The rest of the embedding follows lines 42-53 of the source: the state
    cell, [handleResize], and the effect that measures once, subscribes, and
    returns a cleanup that unsubscribes.  React and the DOM are modelled as
    far as these lines use them:
    - [useState] keeps a cell; its setter overwrites the cell and queues a
      re-render.  The setter is modelled without React's own guard against
      updates of an unmounted component, so that the teardown property below
      rests on the unsubscription alone;
    - [useCallback(fn, [])] keeps the closure of the first render;
    - [useEffect(fn, [handleResize])] schedules [fn] on the first render and
      whenever the identity of [handleResize] differs from the previous
      render's; a scheduled effect runs after the previous cleanup;
    - [addEventListener] appends a listener unless the same callback is
      already registered; [removeEventListener] removes it;
    - a resize event calls the registered listeners in order. *)

(** Callbacks registered for the window's [resize] event: those of other
    code, and closures [() => setDimensions(...)] of this hook instance,
    identified by the render that allocated them. *)
Inductive Listener : Type :=
| Foreign (tag : nat)
| HandleResize (closure : nat).

Definition Listener_eqb (a b : Listener) : bool :=
  match a, b with
  | Foreign m, Foreign n => Nat.eqb m n
  | HandleResize m, HandleResize n => Nat.eqb m n
  | _, _ => false
  end.

(** The part of [window] the hook touches. *)
Record Window : Type := mkWindow {
  innerWidth : Z;
  innerHeight : Z;
  resizeListeners : list Listener
}.

(** The subscription calls the hook makes on the window, logged in the
    order made (most recent first). *)
Inductive EnvCall : Type :=
| AddEventListener (l : Listener)
| RemoveEventListener (l : Listener).

Definition isAdd (c : EnvCall) : bool :=
  match c with AddEventListener _ => true | RemoveEventListener _ => false end.

Definition isRemove (c : EnvCall) : bool :=
  match c with AddEventListener _ => false | RemoveEventListener _ => true end.

Definition addEventListener (l : Listener) (win : Window) : Window :=
  if existsb (Listener_eqb l) (resizeListeners win) then win
  else mkWindow (innerWidth win) (innerHeight win)
                (resizeListeners win ++ [l]).

Fixpoint removeListener (l : Listener) (ls : list Listener) : list Listener :=
  match ls with
  | [] => []
  | x :: rest => if Listener_eqb l x then rest else x :: removeListener l rest
  end.

Definition removeEventListener (l : Listener) (win : Window) : Window :=
  mkWindow (innerWidth win) (innerHeight win)
           (removeListener l (resizeListeners win)).

(** The hook cells of one instance of [useResponsive], and what its latest
    render returned to the component that called it. *)
Record Hooks : Type := mkHooks {
  dimensions : Dimensions;            (* useState cell *)
  handleResizeCell : option nat;      (* useCallback cell, deps [] *)
  effectDeps : option nat;            (* [handleResize] of the last render *)
  pendingEffect : option nat;         (* effect scheduled, not yet run *)
  effectCleanup : option Listener;    (* cleanup of the last effect run *)
  renderCount : nat;
  updateQueued : bool;
  rendered : option UseResponsiveReturn.t
}.

Inductive Phase : Type :=
| NotMounted
| Mounted
| Unmounted.

Record World : Type := mkWorld {
  window : Window;
  hooks : Hooks;
  phase : Phase;
  envCalls : list EnvCall;
  measurements : nat                  (* calls of handleResize so far *)
}.

(** [setDimensions(d)]: overwrite the whole cell, queue a re-render. *)
Definition setDimensions (d : Dimensions) (s : World) : World :=
  let h := hooks s in
  mkWorld (window s)
          (mkHooks d (handleResizeCell h) (effectDeps h) (pendingEffect h)
                   (effectCleanup h) (renderCount h) true (rendered h))
          (phase s) (envCalls s) (measurements s).

(** [handleResize]: one read of the window's size, stored in one update. *)
Definition handleResize (s : World) : World :=
  setDimensions
    (mkDimensions (innerWidth (window s)) (innerHeight (window s)))
    (mkWorld (window s) (hooks s) (phase s) (envCalls s)
             (S (measurements s))).

Definition callAddEventListener (l : Listener) (s : World) : World :=
  mkWorld (addEventListener l (window s)) (hooks s) (phase s)
          (AddEventListener l :: envCalls s) (measurements s).

Definition callRemoveEventListener (l : Listener) (s : World) : World :=
  mkWorld (removeEventListener l (window s)) (hooks s) (phase s)
          (RemoveEventListener l :: envCalls s) (measurements s).

(** The cleanup closure returned by the effect. *)
Definition runCleanup (s : World) : World :=
  match effectCleanup (hooks s) with
  | Some l => callRemoveEventListener l s
  | None => s
  end.

(** The effect body, for the closure [c] that [handleResize] names:
    measure, subscribe, hand back the cleanup. *)
Definition effect (c : nat) (s : World) : World :=
  let s1 := handleResize s in
  let s2 := callAddEventListener (HandleResize c) s1 in
  let h := hooks s2 in
  mkWorld (window s2)
          (mkHooks (dimensions h) (handleResizeCell h) (effectDeps h)
                   (pendingEffect h) (Some (HandleResize c))
                   (renderCount h) (updateQueued h) (rendered h))
          (phase s2) (envCalls s2) (measurements s2).

(** One call of the component body. *)
Definition render (s : World) : World :=
  let h := hooks s in
  let fresh := renderCount h in
  (* const handleResize = useCallback(() => ..., []) *)
  let handleResizeId :=
    match handleResizeCell h with
    | Some c => c
    | None => fresh
    end in
  (* useEffect(() => ..., [handleResize]) *)
  let scheduled :=
    match effectDeps h with
    | Some c => if Nat.eqb c handleResizeId then None else Some handleResizeId
    | None => Some handleResizeId
    end in
  mkWorld (window s)
          (mkHooks (dimensions h) (Some handleResizeId) (Some handleResizeId)
                   scheduled (effectCleanup h) (S fresh) false
                   (Some (useResponsiveReturn (dimensions h))))
          (phase s) (envCalls s) (measurements s).

(** After a render is committed: run the scheduled effect, if any, after the
    cleanup of its previous run. *)
Definition commitEffects (s : World) : World :=
  match pendingEffect (hooks s) with
  | None => s
  | Some c =>
      let s1 := runCleanup s in
      let h := hooks s1 in
      effect c
        (mkWorld (window s1)
                 (mkHooks (dimensions h) (handleResizeCell h) (effectDeps h)
                          None None (renderCount h) (updateQueued h)
                          (rendered h))
                 (phase s1) (envCalls s1) (measurements s1))
  end.

Definition isMounted (s : World) : bool :=
  match phase s with Mounted => true | _ => false end.

(** A queued update of a mounted instance is rendered and committed. *)
Definition flushUpdates (s : World) : World :=
  if updateQueued (hooks s) && isMounted s then commitEffects (render s)
  else s.

(** Delivery of one resize event to a listener. *)
Definition notify (s : World) (l : Listener) : World :=
  match l with
  | Foreign _ => s
  | HandleResize _ => handleResize s
  end.

(** The window takes a new size and fires [resize]. *)
Definition dispatchResize (w h : Z) (s : World) : World :=
  let win := mkWindow w h (resizeListeners (window s)) in
  fold_left notify (resizeListeners win)
            (mkWorld win (hooks s) (phase s) (envCalls s) (measurements s)).

Definition unmount (s : World) : World :=
  let s1 := runCleanup s in
  mkWorld (window s1) (hooks s1) Unmounted (envCalls s1) (measurements s1).

Inductive Event : Type :=
| Mount
| Rerender
| Resize (w h : Z)
| Unmount.

Definition step (s : World) (e : Event) : World :=
  match e, phase s with
  | Mount, NotMounted =>
      flushUpdates
        (commitEffects
           (render (mkWorld (window s) (hooks s) Mounted (envCalls s)
                            (measurements s))))
  | Rerender, Mounted => flushUpdates (commitEffects (render s))
  | Resize w h, _ => flushUpdates (dispatchResize w h s)
  | Unmount, Mounted => unmount s
  | _, _ => s
  end.

Definition run (s : World) (events : list Event) : World :=
  fold_left step events s.

(** The cells before the first render: [useState({ width: 0, height: 0 })],
    every other cell empty. *)
Definition initialHooks : Hooks :=
  mkHooks (mkDimensions 0 0) None None None None 0%nat false None.

(** The world before the hook is first called: a window of size [w] x [h]
    on which other code has registered the listeners [others]. *)
Definition initialWorld (w h : Z) (others : list nat) : World :=
  mkWorld (mkWindow w h (map Foreign others)) initialHooks NotMounted [] 0%nat.

(** [current()]: the size the consumer reads off the latest returned
    object. *)
Definition current (s : World) : option Dimensions :=
  match rendered (hooks s) with
  | Some r =>
      Some (mkDimensions (UseResponsiveReturn.width r)
                         (UseResponsiveReturn.height r))
  | None => None
  end.

(** [breakpoint] as the consumer reads it. *)
Definition currentBreakpoint (s : World) : option BreakpointName :=
  option_map UseResponsiveReturn.breakpoint (rendered (hooks s)).

(** Events that happen to a mounted instance without ending it. *)
Definition isLiveEvent (e : Event) : bool :=
  match e with
  | Rerender | Resize _ _ => true
  | Mount | Unmount => false
  end.

Definition isResizeEvent (e : Event) : bool :=
  match e with
  | Resize _ _ => true
  | _ => false
  end.

(** The shape of every world reached while mounted (see [run_live]). *)
Definition liveWorld (w h : Z) (others : list nat) (renders measured : nat)
  : World :=
  mkWorld
    (mkWindow w h (map Foreign others ++ [HandleResize 0]))
    (mkHooks (mkDimensions w h) (Some 0%nat) (Some 0%nat) None
             (Some (HandleResize 0)) renders false
             (Some (useResponsiveReturn (mkDimensions w h))))
    Mounted [AddEventListener (HandleResize 0)] measured.

(** The shape of every world reached after unmount (see [run_torn_down]):
    [d] is the state cell as the unmount left it. *)
Definition tornDownWorld (w h : Z) (others : list nat) (d : Dimensions)
  (renders measured : nat) : World :=
  mkWorld
    (mkWindow w h (map Foreign others))
    (mkHooks d (Some 0%nat) (Some 0%nat) None
             (Some (HandleResize 0)) renders false
             (Some (useResponsiveReturn d)))
    Unmounted
    [RemoveEventListener (HandleResize 0); AddEventListener (HandleResize 0)]
    measured.

(** The window size after a sequence of events, starting from [size]. *)
Definition sizeAfter (size : Z * Z) (events : list Event) : Z * Z :=
  fold_left
    (fun p e => match e with Resize w h => (w, h) | _ => p end)
    events size.

(** ** The settings page

    [SettingsPage] (the page component) calls the hook for [isMobile] and
    loads backend information into five state cells.  Embedded here: the two
    styles computed from [isMobile], and [loadBackendInfo] with the values
    its awaits produce taken as inputs. *)

Module SettingsPage.




(** Values the backend may answer with.  The page never computes with a
    number, it only tests [typeof] and stores it. *)
#[local] Unset Elimination Schemes.
Inductive JsValue : Type :=
| JsUndefined
| JsNull
| JsBool (b : bool)
| JsNumber (n : Z)
| JsString (s : string)
| JsArray (items : list JsValue)
| JsObject (fields : list (string * JsValue)).
#[local] Set Elimination Schemes.

Fixpoint lookupField (key : string) (fields : list (string * JsValue))
  : JsValue :=
  match fields with
  | [] => JsUndefined
  | (k, v) :: rest => if String.eqb k key then v else lookupField key rest
  end.

(** [v?.key]: undefined on null and undefined, the field of an object, and
    undefined for the keys read here on any other value. *)
Definition optionalProp (v : JsValue) (key : string) : JsValue :=
  match v with
  | JsObject fields => lookupField key fields
  | _ => JsUndefined
  end.

(** [v ?? fallback] *)
Definition nullish (v fallback : JsValue) : JsValue :=
  match v with
  | JsUndefined | JsNull => fallback
  | _ => v
  end.

(** What a rejected promise carries, with the two ways the page turns it
    into a message: [e.message] of an [Error], [String(e)] of anything
    else. *)
Inductive Thrown : Type :=
| ThrownError (message : string)
| ThrownOther (asString : string).

Definition errorMessage (e : Thrown) : string :=
  match e with
  | ThrownError message => message
  | ThrownOther asString => asString
  end.

Inductive Outcome (A : Type) : Type :=
| Fulfilled (a : A)
| Rejected (e : Thrown).

Arguments Fulfilled {A} a.
Arguments Rejected {A} e.

(** Calls of the announcement hook. *)
Inductive Announcement : Type :=
| AnnounceInfo (text : string)
| AnnounceSuccess (text : string)
| AnnounceError (text : string).

(** The backend cells of the page and the announcements made so far (most
    recent first). *)
Record Backend : Type := mkBackend {
  backendLoading : bool;
  backendError : option string;
  ver : JsValue;
  caps : list JsValue;
  uptimeSeconds : Z;
  announced : list Announcement
}.

(** The cells as the [useState] calls create them. *)
Definition initialBackend : Backend :=
  mkBackend false None JsNull [] 0 [].

(** [Array.isArray(capsPayload?.capabilities)
      ? (capsPayload?.capabilities ?? []) : []] *)
Definition resolvedCapabilities (capabilitiesResponse : JsValue)
  : list JsValue :=
  match optionalProp capabilitiesResponse "capabilities" with
  | JsArray items => items
  | _ => []
  end.

(** [typeof metricsPayload?.metrics?.uptimeSeconds === 'number'
      ? metricsPayload.metrics.uptimeSeconds : 0] *)
Definition uptimeValue (metricsResponse : JsValue) : Z :=
  match optionalProp (optionalProp metricsResponse "metrics")
                     "uptimeSeconds" with
  | JsNumber n => n
  | _ => 0
  end.

(** What one call of [loadBackendInfo] awaits: the result of
    [Promise.all([getVersion(), getCapabilities(), getMetrics()])], and the
    result of [getConfigDirs()], which is called only after the first
    fulfils. *)
Record Load : Type := mkLoad {
  allThree : Outcome (JsValue * JsValue * JsValue);
  configDirs : Outcome JsValue
}.

(** The part of [loadBackendInfo] before its first await. *)
Definition loadStart (p : Backend) : Backend :=
  mkBackend true None (ver p) (caps p) (uptimeSeconds p)
            (AnnounceInfo "Loading backend information..." :: announced p).

(** The [catch] block followed by [finally]. *)
Definition loadFailed (e : Thrown) (p : Backend) : Backend :=
  let errorMsg := errorMessage e in
  mkBackend false (Some errorMsg) (ver p) (caps p) (uptimeSeconds p)
            (AnnounceError
               ("Failed to load backend information: " ++ errorMsg)%string
             :: announced p).

(** The rest of the [try] block, then [finally]. *)
Definition loadSettle (l : Load) (p : Backend) : Backend :=
  match allThree l with
  | Rejected e => loadFailed e p
  | Fulfilled (versionResponse, capabilitiesResponse, metricsResponse) =>
      match configDirs l with
      | Rejected e => loadFailed e p
      | Fulfilled _ =>
          let versionInfo := nullish versionResponse JsNull in
          mkBackend false (backendError p) versionInfo
                    (resolvedCapabilities capabilitiesResponse)
                    (uptimeValue metricsResponse)
                    (AnnounceSuccess "Backend information loaded successfully"
                     :: announced p)
      end
  end.

Definition loadBackendInfo (l : Load) (p : Backend) : Backend :=
  loadSettle l (loadStart p).

(** Loads one after the other: the mount effect's, then one per press of
    the refresh button, which is disabled while a load is running. *)
Definition loadAll (loads : list Load) (p : Backend) : Backend :=
  fold_left (fun p l => loadBackendInfo l p) loads p.

(** Whether a load reaches the end of its [try] block. *)
Definition succeeds (l : Load) : bool :=
  match allThree l, configDirs l with
  | Fulfilled _, Fulfilled _ => true
  | _, _ => false
  end.

(** The three cells a successful load writes. *)
Definition loadedData (p : Backend) : JsValue * list JsValue * Z :=
  (ver p, caps p, uptimeSeconds p).

(** The data of the most recent successful load of a sequence, [start] if
    there is none. *)
Definition latestData (start : JsValue * list JsValue * Z)
  (loads : list Load) : JsValue * list JsValue * Z :=
  fold_left
    (fun data l =>
       match allThree l with
       | Fulfilled (v, c, m) =>
           if succeeds l
           then (nullish v JsNull, resolvedCapabilities c, uptimeValue m)
           else data
       | Rejected _ => data
       end)
    loads start.

(** The message of the failure of a load, if it fails. *)
Definition failure (l : Load) : option string :=
  match allThree l with
  | Rejected e => Some (errorMessage e)
  | Fulfilled _ =>
      match configDirs l with
      | Rejected e => Some (errorMessage e)
      | Fulfilled _ => None
      end
  end.

(** The save button.  [saveChanges] sets two cells and starts a timeout
    whose callback starts a second one; the pending timeouts are kept as a
    list, and any pending timeout may be the next to fire. *)
Inductive Timeout : Type :=
| FinishSave              (* the callback given 600 ms *)
| ClearSaved.             (* [() => setSaved(false)], given 1200 ms *)

Record SaveState : Type := mkSaveState {
  saving : bool;
  saved : bool;
  timeouts : list Timeout;
  saveAnnounced : list Announcement
}.

Definition initialSaveState : SaveState :=
  mkSaveState false false [] [].

Definition saveChanges (s : SaveState) : SaveState :=
  mkSaveState true false (timeouts s ++ [FinishSave])
              (AnnounceInfo "Saving settings..." :: saveAnnounced s).

Definition runTimeout (t : Timeout) (s : SaveState) : SaveState :=
  match t with
  | FinishSave =>
      mkSaveState false true (timeouts s ++ [ClearSaved])
                  (AnnounceSuccess "Settings saved successfully"
                   :: saveAnnounced s)
  | ClearSaved =>
      mkSaveState (saving s) false (timeouts s) (saveAnnounced s)
  end.

Fixpoint removeNth {A : Type} (i : nat) (l : list A) : list A :=
  match l, i with
  | [], _ => []
  | _ :: rest, O => rest
  | x :: rest, S j => x :: removeNth j rest
  end.

Inductive SaveEvent : Type :=
| SaveClicked
| TimeoutFires (i : nat).    (* the i-th pending timeout fires *)

Definition saveStep (s : SaveState) (e : SaveEvent) : SaveState :=
  match e with
  | SaveClicked => saveChanges s
  | TimeoutFires i =>
      match nth_error (timeouts s) i with
      | Some t =>
          runTimeout t
            (mkSaveState (saving s) (saved s) (removeNth i (timeouts s))
                         (saveAnnounced s))
      | None => s
      end
  end.

Definition saveRun (events : list SaveEvent) (s : SaveState) : SaveState :=
  fold_left saveStep events s.

Definition isFinishSave (t : Timeout) : bool :=
  match t with FinishSave => true | ClearSaved => false end.

Definition isClearSaved (t : Timeout) : bool :=
  match t with FinishSave => false | ClearSaved => true end.

(** What [saveStep] preserves. *)
Definition saveInvariant (s : SaveState) : Prop :=
  saving s && saved s = false /\
  implb (saving s) (existsb isFinishSave (timeouts s)) = true /\
  implb (saved s) (existsb isClearSaved (timeouts s)) = true.

End SettingsPage.

(** ** The metrics middleware and the server's fallback handlers

    [createMetricsMiddleware] (metrics example) and the 404 and error
    handlers of the Express server.  The StatsD client is a log of calls,
    [Date.now()] reads successive values of a clock, and the response object
    is its status code and its [end] function; a function stored in [end]
    receives the request and status code as they are when it is called,
    since the closure reads them from the live objects. *)

Module Metrics.

Inductive StatsdCall : Type :=
| Increment (stat : string) (value : Z) (tags : list string)
| Timing (stat : string) (value : Z) (tags : list string).

(** What [res.json] hands to [res.end]: the serialisation of an object,
    kept as the object's fields. *)
Inductive Chunk : Type :=
| JsonOf (fields : list (string * string)).

Record Server : Type := mkServer {
  statsd : list StatsdCall;          (* calls made, oldest first *)
  clock : nat -> Z;                  (* the values Date.now() will return *)
  clockReads : nat;
  ended : list (Z * list Chunk)      (* calls of the native end, oldest first:
                                        status code and arguments *)
}.




Definition dateNow (s : Server) : Z * Server :=
  (clock s (clockReads s),
   mkServer (statsd s) (clock s) (S (clockReads s)) (ended s)).


Definition timing (stat : string) (value : Z) (tags : list string)
  (s : Server) : Server :=
  mkServer (statsd s ++ [Timing stat value tags]) (clock s)
           (clockReads s) (ended s).


(** An integer inside a template literal. *)
Definition decimal (n : Z) : string :=
  NilZero.string_of_int (Z.to_int n).




Definition statusClassTag (code : Z) : string :=
  let statusClass := code / 100 in    (* Math.floor(res.statusCode / 100) *)
  ("status_class:" ++ decimal statusClass ++ "xx")%string.









(** The decimal digit [k] as a one-character string. *)
Definition digit (k : Z) : string :=
  String (ascii_of_nat (48 + Z.to_nat k)) EmptyString.

(** [timedFunction(name, fn)]: the wrapper it returns.  A call of [fn]
    either returns a result or throws; the wrapper has no [try], so a throw
    leaves it at once.  Console output is not modelled. *)
Definition timedFunction {A R E : Type} (name : string)
  (fn : A -> Server -> (R + E) * Server)
  : A -> Server -> (R + E) * Server :=
  fun args s =>
    let (startTime, s1) := dateNow s in
    match fn args s1 with
    | (inl result, s2) =>
        let (now, s3) := dateNow s2 in
        let duration := now - startTime in
        let s4 := timing "function.execution_time" duration
                         [("function:" ++ name)%string] s3 in
        (inl result, s4)
    | (inr thrown, s2) => (inr thrown, s2)
    end.

End Metrics.

(** * Properties of the derived facts *)

(** Case analysis on every comparison of the goal, closed by linear
    arithmetic. *)
Ltac by_comparisons :=
  repeat rewrite Z.geb_leb in *;
  repeat match goal with
         | |- context [?a <? ?b] => destruct (Z.ltb_spec a b)
         | |- context [?a <=? ?b] => destruct (Z.leb_spec a b)
         | H : context [?a <? ?b] |- _ => destruct (Z.ltb_spec a b)
         | H : context [?a <=? ?b] |- _ => destruct (Z.leb_spec a b)
         end;
  simpl in *; try reflexivity; try congruence; try lia.

Ltac unfold_derived :=
  unfold useResponsiveReturn, flags, flagNamed,
    isBelow, isAbove, isBetween, breakpoint,
    isMobile, isTablet, isDesktop, isWide, getBreakpointValue in *;
  simpl in *.

Lemma isBelow_lt (d : Dimensions) (b : BreakpointArg) :
  isBelow d b = true <-> width d < getBreakpointValue b.
Proof. unfold isBelow. apply Z.ltb_lt. Qed.

Lemma isAbove_ge (d : Dimensions) (b : BreakpointArg) :
  isAbove d b = true <-> width d >= getBreakpointValue b.
Proof. unfold isAbove. rewrite Z.geb_le. lia. Qed.

Lemma breakpoint_cases (d : Dimensions) :
  (width d < 768 /\ breakpoint d = mobile) \/
  (768 <= width d < 1024 /\ breakpoint d = tablet) \/
  (1024 <= width d < 1280 /\ breakpoint d = desktop) \/
  (1280 <= width d /\ breakpoint d = wide).
Proof.
  unfold breakpoint; simpl.
  destruct (Z.ltb_spec (width d) 768); [left; split; [lia | reflexivity] |].
  destruct (Z.ltb_spec (width d) 1024);
    [right; left; split; [lia | reflexivity] |].
  destruct (Z.ltb_spec (width d) 1280);
    [right; right; left; split; [lia | reflexivity] |].
  right; right; right; split; [lia | reflexivity].
Qed.

(** C1. For every state cell, exactly one of the four flags of the returned
    object is true, and the flag named after a tier is true exactly when
    [breakpoint] of the same object is that tier. *)
Theorem flags_partition_agree_with_breakpoint (d : Dimensions) :
  let r := useResponsiveReturn d in
  count_occ bool_dec (flags r) true = 1%nat /\
  (forall name : BreakpointName,
      flagNamed r name = true <-> UseResponsiveReturn.breakpoint r = name).
Proof.
  split.
  - unfold_derived. by_comparisons.
  - intros name. destruct name; unfold_derived; by_comparisons;
      split; intros; try reflexivity; try discriminate; try lia.
Qed.

(** C2. [breakpoint] at the boundary widths: 767 is mobile, 768 tablet, 1023
    tablet, 1024 desktop, 1279 desktop, 1280 wide; a width equal to a
    threshold of the table is in the tier above that threshold, and the
    width just under it is still in the tier the threshold ends. *)
Theorem breakpoint_boundaries (h : Z) :
  breakpoint (mkDimensions 767 h) = mobile /\
  breakpoint (mkDimensions 768 h) = tablet /\
  breakpoint (mkDimensions 1023 h) = tablet /\
  breakpoint (mkDimensions 1024 h) = desktop /\
  breakpoint (mkDimensions 1279 h) = desktop /\
  breakpoint (mkDimensions 1280 h) = wide /\
  (forall name : BreakpointName,
      breakpoint (mkDimensions (BREAKPOINTS name) h) = tierAbove name /\
      breakpoint (mkDimensions (BREAKPOINTS name - 1) h) = name).
Proof.
  repeat split; try reflexivity; destruct name; reflexivity.
Qed.

(** C3. For every argument (name or integer) and every width, [isAbove] is
    the negation of [isBelow]: [isBelow] holds exactly when the width is
    under the resolved threshold, [isAbove] exactly when it is not. *)
Theorem isBelow_isAbove_complement (d : Dimensions) (b : BreakpointArg) :
  isAbove d b = negb (isBelow d b) /\
  (isBelow d b = true <-> width d < getBreakpointValue b) /\
  (isAbove d b = true <-> width d >= getBreakpointValue b) /\
  UseResponsiveReturn.isAbove (useResponsiveReturn d) b
  = negb (UseResponsiveReturn.isBelow (useResponsiveReturn d) b).
Proof.
  assert (E : isAbove d b = negb (isBelow d b)).
  { unfold isAbove, isBelow. by_comparisons. }
  repeat split; try exact E;
    try apply isBelow_lt; try apply isAbove_ge.
Qed.

(** C4. [isBetween min max] is true exactly when the width lies in the
    half-open range from the resolved [min] to the resolved [max]; it is a
    total function, and on an empty or inverted range it is false at every
    width.  Between tablet and desktop: true at 1024, false at 1023 and at
    1280. *)
Theorem isBetween_range (d : Dimensions) (min max : BreakpointArg) :
  (isBetween d min max = true <->
   getBreakpointValue min <= width d < getBreakpointValue max) /\
  (getBreakpointValue min >= getBreakpointValue max ->
   isBetween d min max = false) /\
  isBetween d min min = false /\
  UseResponsiveReturn.isBetween (useResponsiveReturn d) min max
  = isBetween d min max /\
  isBetween (mkDimensions 1024 (height d)) (ByName tablet) (ByName desktop)
  = true /\
  isBetween (mkDimensions 1023 (height d)) (ByName tablet) (ByName desktop)
  = false /\
  isBetween (mkDimensions 1280 (height d)) (ByName tablet) (ByName desktop)
  = false.
Proof.
  unfold isBetween; simpl.
  repeat split; intros; by_comparisons.
Qed.

(** C5. [breakpoint] is monotone: a width that is no smaller gives a tier
    that is no lower in the order mobile, tablet, desktop, wide. *)
Theorem breakpoint_monotone (d1 d2 : Dimensions) :
  width d1 <= width d2 ->
  (tierRank (breakpoint d1) <= tierRank (breakpoint d2))%nat.
Proof.
  intros Hle.
  destruct (breakpoint_cases d1) as [[? ->] | [[? ->] | [[? ->] | [? ->]]]];
    destruct (breakpoint_cases d2) as [[? ->] | [[? ->] | [[? ->] | [? ->]]]];
    simpl; lia.
Qed.

(** C9. Two state cells of equal width give the same breakpoint, the same
    four flags and the same answers to every query, whatever their
    heights. *)
Theorem derived_facts_ignore_height (d1 d2 : Dimensions) :
  width d1 = width d2 ->
  let r1 := useResponsiveReturn d1 in
  let r2 := useResponsiveReturn d2 in
  UseResponsiveReturn.breakpoint r1 = UseResponsiveReturn.breakpoint r2 /\
  UseResponsiveReturn.isMobile r1 = UseResponsiveReturn.isMobile r2 /\
  UseResponsiveReturn.isTablet r1 = UseResponsiveReturn.isTablet r2 /\
  UseResponsiveReturn.isDesktop r1 = UseResponsiveReturn.isDesktop r2 /\
  UseResponsiveReturn.isWide r1 = UseResponsiveReturn.isWide r2 /\
  (forall b, UseResponsiveReturn.isBelow r1 b
             = UseResponsiveReturn.isBelow r2 b) /\
  (forall b, UseResponsiveReturn.isAbove r1 b
             = UseResponsiveReturn.isAbove r2 b) /\
  (forall min max, UseResponsiveReturn.isBetween r1 min max
                   = UseResponsiveReturn.isBetween r2 min max).
Proof.
  intros Hw. unfold_derived. rewrite Hw. repeat split.
Qed.

(** * Properties of the hook's life *)

Lemma notify_foreign (others : list nat) (s : World) :
  fold_left notify (map Foreign others) s = s.
Proof.
  revert s. induction others as [| o others IH]; intros s; simpl.
  - reflexivity.
  - apply IH.
Qed.

Lemma not_registered_among_foreign (c : nat) (others : list nat) :
  existsb (Listener_eqb (HandleResize c)) (map Foreign others) = false.
Proof.
  induction others as [| o others IH]; simpl; [reflexivity | exact IH].
Qed.

Lemma removeListener_last (c : nat) (others : list nat) :
  removeListener (HandleResize c) (map Foreign others ++ [HandleResize c])
  = map Foreign others.
Proof.
  induction others as [| o others IH]; simpl.
  - rewrite Nat.eqb_refl. reflexivity.
  - rewrite IH. reflexivity.
Qed.

(** Mounting: first render, then the effect, then the render of the update
    the effect queued. *)
Lemma step_mount (w h : Z) (others : list nat) :
  step (initialWorld w h others) Mount = liveWorld w h others 2 1.
Proof.
  unfold step, initialWorld, liveWorld; simpl.
  unfold commitEffects, render; simpl.
  unfold effect, handleResize, setDimensions, callAddEventListener,
    addEventListener; simpl.
  rewrite not_registered_among_foreign. reflexivity.
Qed.

(** A re-render of the owner changes nothing but the render count: the
    memoized [handleResize] is the same closure, so the effect is not
    scheduled again. *)
Lemma step_live_rerender (w h : Z) (others : list nat) (n m : nat) :
  step (liveWorld w h others n m) Rerender = liveWorld w h others (S n) m.
Proof. reflexivity. Qed.

Lemma step_live_mount (w h : Z) (others : list nat) (n m : nat) :
  step (liveWorld w h others n m) Mount = liveWorld w h others n m.
Proof. reflexivity. Qed.

Lemma step_live_resize (w h : Z) (others : list nat) (n m : nat) (w' h' : Z) :
  step (liveWorld w h others n m) (Resize w' h')
  = liveWorld w' h' others (S n) (S m).
Proof.
  unfold step, liveWorld, dispatchResize; simpl.
  rewrite fold_left_app, notify_foreign. reflexivity.
Qed.

Lemma step_live_unmount (w h : Z) (others : list nat) (n m : nat) :
  step (liveWorld w h others n m) Unmount
  = tornDownWorld w h others (mkDimensions w h) n m.
Proof.
  unfold step, liveWorld, tornDownWorld, unmount, runCleanup,
    callRemoveEventListener, removeEventListener; simpl.
  rewrite removeListener_last. reflexivity.
Qed.

(** After unmount no event reaches the instance: a resize only changes the
    window, every other event is ignored. *)
Lemma step_torn_down (w h : Z) (others : list nat) (d : Dimensions)
  (n m : nat) (e : Event) :
  step (tornDownWorld w h others d n m) e
  = tornDownWorld (fst (sizeAfter (w, h) [e])) (snd (sizeAfter (w, h) [e]))
                  others d n m.
Proof.
  destruct e as [| | w' h' |]; try reflexivity.
  unfold step, tornDownWorld, dispatchResize; simpl.
  rewrite notify_foreign. reflexivity.
Qed.

Lemma run_cons (s : World) (e : Event) (events : list Event) :
  run s (e :: events) = run (step s e) events.
Proof. reflexivity. Qed.

Lemma run_live (life : list Event) :
  forall (w h : Z) (others : list nat) (n m : nat),
    forallb isLiveEvent life = true ->
    exists n' m',
      run (liveWorld w h others n m) life
      = liveWorld (fst (sizeAfter (w, h) life)) (snd (sizeAfter (w, h) life))
                  others n' m'.
Proof.
  induction life as [| e life IH]; intros w h others n m Hlive.
  - exists n, m. reflexivity.
  - simpl in Hlive. apply andb_prop in Hlive as [He Hlive].
    destruct e as [| | w' h' |]; try discriminate; rewrite run_cons.
    + rewrite step_live_rerender. apply IH, Hlive.
    + rewrite step_live_resize. apply IH, Hlive.
Qed.

Lemma run_torn_down (after : list Event) :
  forall (w h : Z) (others : list nat) (d : Dimensions) (n m : nat),
    run (tornDownWorld w h others d n m) after
    = tornDownWorld (fst (sizeAfter (w, h) after))
                    (snd (sizeAfter (w, h) after)) others d n m.
Proof.
  induction after as [| e after IH]; intros w h others d n m.
  - reflexivity.
  - rewrite run_cons, step_torn_down, IH.
    destruct e; reflexivity.
Qed.

(** Every world reached by mounting and then living is a [liveWorld]. *)
Lemma run_mounted (w h : Z) (others : list nat) (life : list Event) :
  forallb isLiveEvent life = true ->
  exists n m,
    run (initialWorld w h others) (Mount :: life)
    = liveWorld (fst (sizeAfter (w, h) life)) (snd (sizeAfter (w, h) life))
                others n m.
Proof.
  intros Hlive. rewrite run_cons, step_mount. apply run_live, Hlive.
Qed.

(** C6. Mounting in a window of size [w] x [h] measures the window once and
    stores the size: with no resize event fired, [current()] is that size;
    in particular 1000 x 600 for a window of 1000 x 600. *)
Theorem mount_measures_once (w h : Z) (others : list nat) :
  let s := step (initialWorld w h others) Mount in
  current s = Some (mkDimensions w h) /\
  dimensions (hooks s) = mkDimensions w h /\
  measurements s = 1%nat /\
  current (step (initialWorld 1000 600 others) Mount)
  = Some (mkDimensions 1000 600).
Proof.
  cbv zeta. rewrite !step_mount. repeat split.
Qed.

(** C7. From mount to unmount, whatever re-renders and resizes happen in
    between, the hook calls [addEventListener] once and
    [removeEventListener] once, for the same callback; while mounted that
    callback is registered once; after unmount it is not registered, and no
    later event changes the state cell or what the hook last returned. *)
Theorem subscription_paired (w h : Z) (others : list nat)
  (life after : list Event) :
  forallb isLiveEvent life = true ->
  let alive := run (initialWorld w h others) (Mount :: life) in
  let torn := step alive Unmount in
  let final := run torn after in
  envCalls alive = [AddEventListener (HandleResize 0)] /\
  resizeListeners (window alive) = map Foreign others ++ [HandleResize 0] /\
  envCalls final
  = [RemoveEventListener (HandleResize 0);
     AddEventListener (HandleResize 0)] /\
  length (filter isAdd (envCalls final)) = 1%nat /\
  length (filter isRemove (envCalls final)) = 1%nat /\
  resizeListeners (window final) = map Foreign others /\
  dimensions (hooks final) = dimensions (hooks torn) /\
  rendered (hooks final) = rendered (hooks torn) /\
  measurements final = measurements torn.
Proof.
  intros Hlive. cbv zeta.
  destruct (run_mounted w h others life Hlive) as (n & m & ->).
  rewrite step_live_unmount, run_torn_down.
  repeat split.
Qed.

(** C8. A resize event delivered to a mounted instance overwrites width and
    height together with the window's new size, and the returned object is
    recomputed from it; resizes to widths 500, 2000, 100 give widths 500,
    2000, 100 and breakpoints mobile, wide, mobile. *)
Theorem resize_overwrites_and_tracks (w h : Z) (others : list nat)
  (life : list Event) (w' h' : Z) :
  forallb isLiveEvent life = true ->
  let s :=
    step (run (initialWorld w h others) (Mount :: life)) (Resize w' h') in
  dimensions (hooks s) = mkDimensions w' h' /\
  rendered (hooks s) = Some (useResponsiveReturn (mkDimensions w' h')) /\
  current s = Some (mkDimensions w' h') /\
  currentBreakpoint s = Some (breakpoint (mkDimensions w' h')) /\
  (forall h1 h2 h3 : Z,
      let s0 := step (initialWorld w h others) Mount in
      let s1 := step s0 (Resize 500 h1) in
      let s2 := step s1 (Resize 2000 h2) in
      let s3 := step s2 (Resize 100 h3) in
      current s1 = Some (mkDimensions 500 h1) /\
      currentBreakpoint s1 = Some mobile /\
      current s2 = Some (mkDimensions 2000 h2) /\
      currentBreakpoint s2 = Some wide /\
      current s3 = Some (mkDimensions 100 h3) /\
      currentBreakpoint s3 = Some mobile).
Proof.
  intros Hlive. cbv zeta.
  destruct (run_mounted w h others life Hlive) as (n & m & ->).
  rewrite step_live_resize.
  repeat split; rewrite step_mount, !step_live_resize; reflexivity.
Qed.

(** C10. The object returned by the first render, before any measurement,
    has width 0 and height 0, breakpoint mobile, [isMobile] true and
    [isBelow] true for every breakpoint name; it is the very object returned
    for a measured window of size 0 x 0. *)
Theorem sentinel_is_zero_width_mobile (w h : Z) (others : list nat) :
  dimensions initialHooks = mkDimensions 0 0 /\
  rendered (hooks (render (initialWorld w h others)))
  = Some (useResponsiveReturn (mkDimensions 0 0)) /\
  breakpoint (mkDimensions 0 0) = mobile /\
  isMobile (mkDimensions 0 0) = true /\
  (forall name : BreakpointName,
      isBelow (mkDimensions 0 0) (ByName name) = true) /\
  rendered (hooks (render (initialWorld w h others)))
  = rendered (hooks (step (initialWorld 0 0 others) Mount)).
Proof.
  rewrite step_mount.
  repeat split; destruct name; reflexivity.
Qed.

(** * Instances *)

Lemma isBetween_range_witness :
  getBreakpointValue (ByName desktop) >= getBreakpointValue (ByNumber 1000) /\
  isBetween (mkDimensions 1100 700) (ByName desktop) (ByNumber 1000) = false.
Proof.
  split.
  - simpl; lia.
  - refine (proj1 (proj2 (isBetween_range (mkDimensions 1100 700)
                             (ByName desktop) (ByNumber 1000))) _).
    simpl; lia.
Defined.

Lemma breakpoint_monotone_witness :
  width (mkDimensions 800 600) <= width (mkDimensions 1300 700) /\
  (tierRank (breakpoint (mkDimensions 800 600))
   <= tierRank (breakpoint (mkDimensions 1300 700)))%nat.
Proof.
  split.
  - simpl; lia.
  - apply (breakpoint_monotone (mkDimensions 800 600)
             (mkDimensions 1300 700)).
    simpl; lia.
Defined.

Lemma derived_facts_ignore_height_witness :
  width (mkDimensions 800 600) = width (mkDimensions 800 1) /\
  UseResponsiveReturn.breakpoint (useResponsiveReturn (mkDimensions 800 600))
  = UseResponsiveReturn.breakpoint (useResponsiveReturn (mkDimensions 800 1)).
Proof.
  split.
  - reflexivity.
  - apply (derived_facts_ignore_height (mkDimensions 800 600)
             (mkDimensions 800 1)).
    reflexivity.
Defined.

Lemma subscription_paired_witness :
  forallb isLiveEvent [Rerender; Resize 500 400; Rerender] = true /\
  envCalls
    (run (step (run (initialWorld 1000 600 [7%nat])
                    (Mount :: [Rerender; Resize 500 400; Rerender]))
               Unmount)
         [Resize 2000 900; Resize 100 50])
  = [RemoveEventListener (HandleResize 0);
     AddEventListener (HandleResize 0)].
Proof.
  split.
  - reflexivity.
  - apply (subscription_paired 1000 600 [7%nat]
             [Rerender; Resize 500 400; Rerender]
             [Resize 2000 900; Resize 100 50]).
    reflexivity.
Defined.

Lemma resize_overwrites_and_tracks_witness :
  forallb isLiveEvent [Rerender; Resize 500 400] = true /\
  dimensions
    (hooks (step (run (initialWorld 1000 600 [])
                      (Mount :: [Rerender; Resize 500 400]))
                 (Resize 2000 900)))
  = mkDimensions 2000 900.
Proof.
  split.
  - reflexivity.
  - apply (resize_overwrites_and_tracks 1000 600 []
             [Rerender; Resize 500 400] 2000 900).
    reflexivity.
Defined.

(** * Further properties of the derived facts *)

(** X1. The tier [wide] starts at the desktop threshold, not at the threshold
    the table lists under [wide]: from 1280 up to 1535 the hook reports
    [isWide] and breakpoint [wide] while [isAbove('wide')] is false. *)
Theorem wide_tier_starts_at_desktop_threshold (d : Dimensions) :
  BREAKPOINTS desktop <= width d < BREAKPOINTS wide ->
  isWide d = true /\
  breakpoint d = wide /\
  isAbove d (ByName wide) = false /\
  isBelow d (ByName wide) = true.
Proof.
  intros [Hlo Hhi]. unfold_derived. by_comparisons; repeat split.
Qed.

(** X2. For the three names that bound a tier from above, the named queries
    agree with the tier order: [isBelow(n)] holds exactly when the current
    breakpoint is [n] or lower, [isAbove(n)] exactly when it is higher. *)
Theorem named_queries_agree_with_tier (d : Dimensions) (n : BreakpointName) :
  n <> wide ->
  (isBelow d (ByName n) = true <->
   (tierRank (breakpoint d) <= tierRank n)%nat) /\
  (isAbove d (ByName n) = true <->
   (tierRank n < tierRank (breakpoint d))%nat).
Proof.
  intros Hn. rewrite isBelow_lt, isAbove_ge.
  destruct (breakpoint_cases d) as [[? ->] | [[? ->] | [[? ->] | [? ->]]]];
    destruct n; try congruence; simpl; lia.
Qed.

(** X3. A range splits at any threshold inside it: with resolved thresholds
    a <= b <= c, [isBetween(a, c)] is the disjunction of [isBetween(a, b)]
    and [isBetween(b, c)], and the two halves never hold together. *)
Theorem isBetween_splits (d : Dimensions) (a b c : BreakpointArg) :
  getBreakpointValue a <= getBreakpointValue b ->
  getBreakpointValue b <= getBreakpointValue c ->
  isBetween d a c = isBetween d a b || isBetween d b c /\
  isBetween d a b && isBetween d b c = false.
Proof.
  intros Hab Hbc. unfold isBetween; simpl.
  split; by_comparisons.
Qed.

(** X4. The queries are monotone in the threshold: raising it keeps [isBelow]
    true, lowering it keeps [isAbove] true, and widening a range on either
    side keeps [isBetween] true. *)
Theorem queries_monotone_in_threshold (d : Dimensions)
  (a b : BreakpointArg) :
  getBreakpointValue a <= getBreakpointValue b ->
  (isBelow d a = true -> isBelow d b = true) /\
  (isAbove d b = true -> isAbove d a = true) /\
  (forall m, isBetween d m a = true -> isBetween d m b = true) /\
  (forall m, isBetween d b m = true -> isBetween d a m = true).
Proof.
  intros Hab. unfold isBelow, isAbove, isBetween; simpl.
  repeat split; intros; by_comparisons.
Qed.

(** X5. The table is strictly increasing in tier order, so the named queries
    nest: below a lower name is below every higher name, above a higher
    name is above every lower name. *)
Theorem table_increasing_named_queries_nest (d : Dimensions)
  (a b : BreakpointName) :
  (tierRank a < tierRank b)%nat ->
  BREAKPOINTS a < BREAKPOINTS b /\
  (isBelow d (ByName a) = true -> isBelow d (ByName b) = true) /\
  (isAbove d (ByName b) = true -> isAbove d (ByName a) = true).
Proof.
  intros Hrank.
  assert (Hlt : BREAKPOINTS a < BREAKPOINTS b)
    by (destruct a, b; simpl in *; lia).
  split; [exact Hlt |].
  rewrite !isBelow_lt, !isAbove_ge; simpl. lia.
Qed.

(** * Further properties of the hook's life *)


Lemma step_initial_resize (w h : Z) (others : list nat) (w' h' : Z) :
  step (initialWorld w h others) (Resize w' h') = initialWorld w' h' others.
Proof.
  unfold step, initialWorld, dispatchResize; simpl.
  rewrite notify_foreign. reflexivity.
Qed.

Lemma run_before_mount (pre : list Event) :
  forall (w h : Z) (others : list nat),
    forallb isResizeEvent pre = true ->
    run (initialWorld w h others) pre
    = initialWorld (fst (sizeAfter (w, h) pre)) (snd (sizeAfter (w, h) pre))
                   others.
Proof.
  induction pre as [| e pre IH]; intros w h others Hpre.
  - reflexivity.
  - simpl in Hpre. apply andb_prop in Hpre as [He Hpre].
    destruct e as [| | w' h' |]; try discriminate.
    rewrite run_cons, step_initial_resize. apply IH, Hpre.
Qed.

Lemma run_app (s : World) (xs ys : list Event) :
  run s (xs ++ ys) = run (run s xs) ys.
Proof. unfold run. apply fold_left_app. Qed.


(** X7. Resizes that happen before the mount reach no state of the hook: it has
    rendered nothing and registered nothing.  The mount then stores the size
    the window has at that moment, in one measurement. *)
Theorem mount_measures_size_at_mount (w h : Z) (others : list nat)
  (pre : list Event) :
  forallb isResizeEvent pre = true ->
  let before := run (initialWorld w h others) pre in
  let s := run (initialWorld w h others) (pre ++ [Mount]) in
  rendered (hooks before) = None /\
  dimensions (hooks before) = mkDimensions 0 0 /\
  resizeListeners (window before) = map Foreign others /\
  envCalls before = [] /\
  current s
  = Some (mkDimensions (fst (sizeAfter (w, h) pre))
                       (snd (sizeAfter (w, h) pre))) /\
  measurements s = 1%nat /\
  envCalls s = [AddEventListener (HandleResize 0)].
Proof.
  intros Hpre. cbv zeta.
  rewrite run_app, (run_before_mount pre _ _ _ Hpre).
  change (run ?s [Mount]) with (step s Mount).
  rewrite step_mount. repeat split.
Qed.

(** * Properties of the settings page *)


Lemma loadBackendInfo_once (l : SettingsPage.Load)
  (p : SettingsPage.Backend) :
  let q := SettingsPage.loadBackendInfo l p in
  SettingsPage.backendLoading q = false /\
  SettingsPage.backendError q = SettingsPage.failure l /\
  SettingsPage.loadedData q
  = SettingsPage.latestData (SettingsPage.loadedData p) [l] /\
  List.length (SettingsPage.announced q)
  = (2 + List.length (SettingsPage.announced p))%nat.
Proof.
  destruct l as [[[[v c] m] | e] [dirs | e']]; repeat split.
Qed.

Lemma loadAll_announcements (loads : list SettingsPage.Load) :
  forall p : SettingsPage.Backend,
    List.length (SettingsPage.announced (SettingsPage.loadAll loads p))
    = (2 * List.length loads + List.length (SettingsPage.announced p))%nat.
Proof.
  induction loads as [| l loads IH]; intros p.
  - reflexivity.
  - change (SettingsPage.loadAll (l :: loads) p)
      with (SettingsPage.loadAll loads (SettingsPage.loadBackendInfo l p)).
    rewrite IH.
    destruct (loadBackendInfo_once l p) as (_ & _ & _ & ->).
    cbn [List.length]. lia.
Qed.

(** X9. After any sequence of loads, the version, capabilities and uptime on
    the page are those of the most recent load that succeeded (the previous
    values if none did): a failed refresh leaves the old data in place. *)
Theorem backend_data_from_latest_success (loads : list SettingsPage.Load)
  (p : SettingsPage.Backend) :
  SettingsPage.loadedData (SettingsPage.loadAll loads p)
  = SettingsPage.latestData (SettingsPage.loadedData p) loads.
Proof.
  revert p. induction loads as [| l loads IH]; intros p.
  - reflexivity.
  - unfold SettingsPage.loadAll, SettingsPage.latestData in *. simpl.
    rewrite IH. f_equal.
    destruct l as [[[[v c] m] | e] [dirs | e']]; reflexivity.
Qed.

(** X10. Once a load has settled the page is not loading, whichever way it
    went; the error shown is the message of that load's failure and nothing
    else, so a success clears the error of an earlier failure; and every
    load makes two announcements. *)
Theorem backend_status_from_last_load (loads : list SettingsPage.Load)
  (l : SettingsPage.Load) (p : SettingsPage.Backend) :
  let q := SettingsPage.loadAll (loads ++ [l]) p in
  SettingsPage.backendLoading q = false /\
  SettingsPage.backendError q = SettingsPage.failure l /\
  (SettingsPage.failure l = None <-> SettingsPage.succeeds l = true) /\
  List.length (SettingsPage.announced q)
  = (2 * (List.length loads + 1) + List.length (SettingsPage.announced p))%nat.
Proof.
  cbv zeta. unfold SettingsPage.loadAll. rewrite fold_left_app. simpl.
  set (p' := fold_left _ loads p).
  destruct (loadBackendInfo_once l p') as (Hl & He & _ & Ha).
  split; [exact Hl |]. split; [exact He |]. split.
  - destruct l as [[[[v c] m] | e] [dirs | e']]; simpl;
      split; intros H; try reflexivity; discriminate H.
  - rewrite Ha. subst p'.
    change (fold_left _ loads p) with (SettingsPage.loadAll loads p).
    rewrite loadAll_announcements. lia.
Qed.

(** X11. A rejected [getConfigDirs()] fails the whole load although its result
    is never used: the fulfilled version, capabilities and metrics are
    dropped, the cells keep their old values and the page shows the
    error. *)
Theorem config_dirs_failure_drops_load (v c m : SettingsPage.JsValue)
  (e : SettingsPage.Thrown) (p : SettingsPage.Backend) :
  let l := SettingsPage.mkLoad (SettingsPage.Fulfilled (v, c, m))
                               (SettingsPage.Rejected e) in
  let q := SettingsPage.loadBackendInfo l p in
  SettingsPage.loadedData q = SettingsPage.loadedData p /\
  SettingsPage.backendError q = Some (SettingsPage.errorMessage e) /\
  SettingsPage.backendLoading q = false /\
  SettingsPage.announced q
  = SettingsPage.AnnounceError
      ("Failed to load backend information: "
       ++ SettingsPage.errorMessage e)%string
    :: SettingsPage.AnnounceInfo "Loading backend information..."
    :: SettingsPage.announced p.
Proof. repeat split. Qed.

Lemma existsb_removeNth {A : Type} (f : A -> bool) (l : list A) :
  forall (i : nat) (t : A),
    nth_error l i = Some t ->
    f t = false ->
    existsb f (SettingsPage.removeNth i l) = existsb f l.
Proof.
  induction l as [| x l IH]; intros i t Hnth Hf.
  - destruct i; discriminate Hnth.
  - destruct i as [| j]; simpl in *.
    + injection Hnth as ->. rewrite Hf. reflexivity.
    + rewrite (IH j t Hnth Hf). reflexivity.
Qed.

Lemma saveStep_invariant (s : SettingsPage.SaveState)
  (e : SettingsPage.SaveEvent) :
  SettingsPage.saveInvariant s ->
  SettingsPage.saveInvariant (SettingsPage.saveStep s e).
Proof.
  intros (Hex & Hfin & Hclr). destruct e as [| i]; simpl.
  - unfold SettingsPage.saveInvariant; simpl. rewrite existsb_app; simpl.
    rewrite orb_true_r. repeat split.
  - destruct (nth_error (SettingsPage.timeouts s) i) as [[|] |] eqn:Hnth.
    + unfold SettingsPage.saveInvariant; simpl. rewrite existsb_app; simpl.
      rewrite orb_true_r. repeat split.
    + unfold SettingsPage.saveInvariant; simpl.
      rewrite (existsb_removeNth SettingsPage.isFinishSave _ i
                 SettingsPage.ClearSaved Hnth eq_refl).
      rewrite andb_false_r. repeat split. exact Hfin.
    + repeat split; assumption.
Qed.

Lemma saveRun_invariant (events : list SettingsPage.SaveEvent) :
  forall s : SettingsPage.SaveState,
    SettingsPage.saveInvariant s ->
    SettingsPage.saveInvariant (SettingsPage.saveRun events s).
Proof.
  induction events as [| e events IH]; intros s Hs.
  - exact Hs.
  - apply (IH (SettingsPage.saveStep s e)), saveStep_invariant, Hs.
Qed.

(** X12. Whatever the order of clicks on the save button and of timeouts
    firing, the page is never both saving and saved; while it is saving, the
    timeout that ends the save is pending, so the disabled button is always
    released; while the banner is shown, a timeout that hides it is pending;
    and once no timeout is pending the page is idle. *)
Theorem save_button_invariants (events : list SettingsPage.SaveEvent) :
  let s := SettingsPage.saveRun events SettingsPage.initialSaveState in
  SettingsPage.saving s && SettingsPage.saved s = false /\
  implb (SettingsPage.saving s)
        (existsb SettingsPage.isFinishSave (SettingsPage.timeouts s)) = true /\
  implb (SettingsPage.saved s)
        (existsb SettingsPage.isClearSaved (SettingsPage.timeouts s)) = true /\
  match SettingsPage.timeouts s with
  | [] => SettingsPage.saving s = false /\ SettingsPage.saved s = false
  | _ :: _ => True
  end.
Proof.
  cbv zeta.
  destruct (saveRun_invariant events SettingsPage.initialSaveState)
    as (Hex & Hfin & Hclr); [repeat split |].
  repeat split; try assumption.
  destruct (SettingsPage.timeouts _); [| exact I].
  destruct (SettingsPage.saving _), (SettingsPage.saved _);
    simpl in *; split; congruence.
Qed.

(** * Properties of the metrics middleware *)

(** X13. For a status code Node accepts (100 to 999), the [status_class] tag of
    [http.responses] is the hundreds digit of the code followed by xx: 2xx
    for 200 to 299, 4xx for 404, 5xx for 500. *)
Theorem status_class_is_hundreds_digit (code k : Z) :
  1 <= k <= 9 ->
  100 * k <= code < 100 * k + 100 ->
  Metrics.statusClassTag code
  = ("status_class:" ++ Metrics.digit k ++ "xx")%string.
Proof.
  intros Hk Hcode. unfold Metrics.statusClassTag.
  assert (Hdiv : code / 100 = k).
  { symmetry. apply (Z.div_unique code 100 k (code - 100 * k)); lia. }
  rewrite Hdiv. clear Hdiv Hcode.
  assert (Hcases : k = 1 \/ k = 2 \/ k = 3 \/ k = 4 \/ k = 5 \/ k = 6 \/
                   k = 7 \/ k = 8 \/ k = 9) by lia.
  repeat (destruct Hcases as [-> | Hcases]; [reflexivity |]).
  subst k. reflexivity.
Qed.



(** X16. A function wrapped by [timedFunction] returns what the function
    returns.  When it returns normally, one timing call tagged with the
    function's name is added after whatever the function itself recorded,
    its value the difference of the clock readings around the call; when it
    throws, the throw passes through and no timing is recorded. *)
Theorem timed_function_result_and_failure {A R E : Type} (name : string)
  (fn : A -> Metrics.Server -> (R + E) * Metrics.Server) (args : A)
  (s : Metrics.Server) :
  let inner := fn args (snd (Metrics.dateNow s)) in
  let outer := Metrics.timedFunction name fn args s in
  fst outer = fst inner /\
  match fst inner with
  | inl _ =>
      Metrics.statsd (snd outer)
      = Metrics.statsd (snd inner)
        ++ [ Metrics.Timing "function.execution_time"
               (Metrics.clock (snd inner) (Metrics.clockReads (snd inner))
                - Metrics.clock s (Metrics.clockReads s))
               [("function:" ++ name)%string] ] /\
      Metrics.ended (snd outer) = Metrics.ended (snd inner)
  | inr _ => snd outer = snd inner
  end.
Proof.
  cbv zeta. unfold Metrics.timedFunction; simpl.
  destruct (fn args _) as [[result | thrown] s2]; simpl; repeat split.
Qed.

(** * Instances of the further properties *)

Lemma wide_tier_starts_at_desktop_threshold_witness :
  BREAKPOINTS desktop <= width (mkDimensions 1400 900) < BREAKPOINTS wide /\
  isAbove (mkDimensions 1400 900) (ByName wide) = false.
Proof.
  split.
  - simpl; lia.
  - refine (proj1 (proj2 (proj2
             (wide_tier_starts_at_desktop_threshold
                (mkDimensions 1400 900) _)))).
    simpl; lia.
Defined.

Lemma named_queries_agree_with_tier_witness :
  tablet <> wide /\
  (isBelow (mkDimensions 900 600) (ByName tablet) = true <->
   (tierRank (breakpoint (mkDimensions 900 600)) <= tierRank tablet)%nat).
Proof.
  split.
  - discriminate.
  - refine (proj1 (named_queries_agree_with_tier
                     (mkDimensions 900 600) tablet _)).
    discriminate.
Defined.

Lemma isBetween_splits_witness :
  getBreakpointValue (ByName mobile) <= getBreakpointValue (ByNumber 900) /\
  getBreakpointValue (ByNumber 900) <= getBreakpointValue (ByName tablet) /\
  isBetween (mkDimensions 950 600) (ByName mobile) (ByName tablet)
  = isBetween (mkDimensions 950 600) (ByName mobile) (ByNumber 900)
    || isBetween (mkDimensions 950 600) (ByNumber 900) (ByName tablet).
Proof.
  split; [simpl; lia |]. split; [simpl; lia |].
  refine (proj1 (isBetween_splits (mkDimensions 950 600)
                   (ByName mobile) (ByNumber 900) (ByName tablet) _ _));
    simpl; lia.
Defined.

Lemma queries_monotone_in_threshold_witness :
  getBreakpointValue (ByNumber 600) <= getBreakpointValue (ByName mobile) /\
  (isBelow (mkDimensions 500 400) (ByNumber 600) = true ->
   isBelow (mkDimensions 500 400) (ByName mobile) = true).
Proof.
  split.
  - simpl; lia.
  - refine (proj1 (queries_monotone_in_threshold (mkDimensions 500 400)
                     (ByNumber 600) (ByName mobile) _)).
    simpl; lia.
Defined.

Lemma table_increasing_named_queries_nest_witness :
  (tierRank mobile < tierRank desktop)%nat /\
  BREAKPOINTS mobile < BREAKPOINTS desktop.
Proof.
  split.
  - simpl; lia.
  - refine (proj1 (table_increasing_named_queries_nest
                     (mkDimensions 500 400) mobile desktop _)).
    simpl; lia.
Defined.


Lemma mount_measures_size_at_mount_witness :
  forallb isResizeEvent [Resize 500 400; Resize 1300 800] = true /\
  rendered
    (hooks (run (initialWorld 1000 600 [])
                [Resize 500 400; Resize 1300 800]))
  = None.
Proof.
  split.
  - reflexivity.
  - refine (proj1 (mount_measures_size_at_mount 1000 600 []
                     [Resize 500 400; Resize 1300 800] _)).
    reflexivity.
Defined.


Lemma status_class_is_hundreds_digit_witness :
  1 <= 4 <= 9 /\
  100 * 4 <= 404 < 100 * 4 + 100 /\
  Metrics.statusClassTag 404
  = ("status_class:" ++ Metrics.digit 4 ++ "xx")%string.
Proof.
  split; [lia |]. split; [lia |].
  apply (status_class_is_hundreds_digit 404 4); lia.
Defined.


